(** * UpaiRag: the [UpaiLLM] batch adapter (src/upairag/models/UpaiLLM.py)

    A shallow embedding of the class [UpaiLLM] and of the fragment of Python it
    runs on: dynamically typed values, dictionaries held by reference in an
    object store, exceptions, [try]/[except Exception], list comprehensions
    over [zip], and the external [litellm.batch_completion] call, which is a
    parameter of the development. *)

From Stdlib Require Import ZArith String PrimFloat.
From stdpp Require Import gmap strings list fin_maps.

Set Warnings "-register-all,-inexact-float".
Local Open Scope string_scope.

(** ** Python values *)

Module Py.

(** An exception instance: its class, whether the class derives from
    [Exception] (as opposed to a bare [BaseException] such as
    [KeyboardInterrupt] or [SystemExit]), and [str(e)]. *)
Record PyExc := mkExc {
  exc_class : string;
  exc_is_Exception : bool;
  exc_str : string
}.

(** Values. [PyDict] is a dictionary with string keys seen as a value;
    [PyObj cls attrs] is an instance of class [cls] with the attribute
    namespace [attrs] and no special methods; a function without arguments
    held as an attribute is given by what calling it does: it returns a
    value, or raises an instance of a class [cls] derived from [Exception]
    with message [msg]. Tuples, dictionaries with keys that are not strings
    and instances with [__getitem__] are not among these values. *)
Inductive PyVal :=
| PyNone
| PyBool (b : bool)
| PyInt (z : Z)
| PyFloat (f : float)
| PyStr (s : string)
| PyList (l : list PyVal)
| PyDict (d : gmap string PyVal)
| PyObj (cls : string) (attrs : gmap string PyVal)
| PyMethodReturns (v : PyVal)
| PyMethodRaises (cls msg : string).

(** The result of evaluating an expression. *)
Inductive outcome (A : Type) :=
| Ok (a : A)
| Raised (e : PyExc).
Arguments Ok {A} a.
Arguments Raised {A} e.

Definition ValueError (msg : string) : PyExc := mkExc "ValueError" true msg.
Definition TypeError (msg : string) : PyExc := mkExc "TypeError" true msg.
Definition IndexError (msg : string) : PyExc := mkExc "IndexError" true msg.
Definition AttributeError (msg : string) : PyExc := mkExc "AttributeError" true msg.
(** [str(KeyError(k))] is [repr(k)]. *)
Definition KeyError (repr_key : string) : PyExc := mkExc "KeyError" true repr_key.

(** [type(v).__name__] *)
Definition type_name (v : PyVal) : string :=
  match v with
  | PyNone => "NoneType"
  | PyBool _ => "bool"
  | PyInt _ => "int"
  | PyFloat _ => "float"
  | PyStr _ => "str"
  | PyList _ => "list"
  | PyDict _ => "dict"
  | PyObj cls _ => cls
  | PyMethodReturns _ | PyMethodRaises _ _ => "function"
  end.

(** [len(d) != 0] *)
Definition dict_truthy (d : gmap string PyVal) : bool := negb (size d =? 0)%nat.

(** [bool(v)], the test behind [or], [not] and [if]. *)
Definition truthy (v : PyVal) : bool :=
  match v with
  | PyNone => false
  | PyBool b => b
  | PyInt z => negb (z =? 0)%Z
  | PyFloat f => negb (f =? 0)%float
  | PyStr s => negb (String.length s =? 0)%nat
  | PyList l => negb (length l =? 0)%nat
  | PyDict d => dict_truthy d
  | PyObj _ _ | PyMethodReturns _ | PyMethodRaises _ _ => true
  end.

(** [d.get(key)], with its default [None]. *)
Definition dict_get (d : gmap string PyVal) (key : string) : PyVal :=
  default PyNone (d !! key).

(** [v.name]. Only instances carry attributes here: none of the built-in
    types has an attribute among the names this module reads ([choices],
    [message], [content], [usage], [to_dict]). *)
Definition getattr (v : PyVal) (name : string) : outcome PyVal :=
  match v with
  | PyObj cls attrs =>
      match attrs !! name with
      | Some a => Ok a
      | None => Raised (AttributeError
                  ("'" ++ cls ++ "' object has no attribute '" ++ name ++ "'"))
      end
  | _ => Raised (AttributeError
           ("'" ++ type_name v ++ "' object has no attribute '" ++ name ++ "'"))
  end.

(** [hasattr(v, name)]: whether [getattr] finds the attribute. *)
Definition hasattr (v : PyVal) (name : string) : bool :=
  match getattr v name with
  | Ok _ => true
  | Raised _ => false
  end.

(** [v[0]] *)
Definition first_item (v : PyVal) : outcome PyVal :=
  match v with
  | PyList (x :: _) => Ok x
  | PyList [] => Raised (IndexError "list index out of range")
  | PyStr (String c _) => Ok (PyStr (String c EmptyString))
  | PyStr EmptyString => Raised (IndexError "string index out of range")
  | PyDict _ => Raised (KeyError "0")
  | _ => Raised (TypeError ("'" ++ type_name v ++ "' object is not subscriptable"))
  end.

(** [v[key]] for a string [key] without quotes or escapes (here ["content"]). *)
Definition item (v : PyVal) (key : string) : outcome PyVal :=
  match v with
  | PyDict d =>
      match d !! key with
      | Some x => Ok x
      | None => Raised (KeyError ("'" ++ key ++ "'"))
      end
  | PyList _ => Raised (TypeError "list indices must be integers or slices, not str")
  | PyStr _ => Raised (TypeError "string indices must be integers, not 'str'")
  | _ => Raised (TypeError ("'" ++ type_name v ++ "' object is not subscriptable"))
  end.

(** Sequencing of two evaluations: the first exception ends it. *)
Definition and_then {A B} (o : outcome A) (k : A → outcome B) : outcome B :=
  match o with
  | Ok a => k a
  | Raised e => Raised e
  end.

(** A list comprehension [[f x for x in xs]] whose element expression has no
    effect on the state: elements are evaluated in order and the first
    exception ends the evaluation. *)
Fixpoint comprehension {A B} (f : A → outcome B) (xs : list A) : outcome (list B) :=
  match xs with
  | [] => Ok []
  | x :: xs' =>
      and_then (f x) (λ y, and_then (comprehension f xs') (λ ys, Ok (y :: ys)))
  end.

(** [v()] *)
Definition call (v : PyVal) : outcome PyVal :=
  match v with
  | PyMethodReturns r => Ok r
  | PyMethodRaises cls msg => Raised (mkExc cls true msg)
  | _ => Raised (TypeError ("'" ++ type_name v ++ "' object is not callable"))
  end.

End Py.
Export Py.

Notation "'let!' x ':=' o 'in' k" := (and_then o (λ x, k))
  (at level 10, x name, o at level 100, k at level 200,
   format "'[v' 'let!'  x  ':='  o  'in' '/' k ']'").

(** ** The interpreter state and the monad of statements *)

Module Eff.

(** A reference to a dictionary object: its index in the store, in allocation
    order. *)
Definition loc := nat.

(** The object store holds the dictionaries whose identity matters (the
    caller's [llm_params], the adapter's [self.llm_params], each request
    payload); [stdout] collects the argument lists of the [print] calls. *)
Record state := mkState {
  heap : list (gmap string PyVal);
  stdout : list (list PyVal)
}.

Definition M (A : Type) : Type := state → outcome A * state.

Definition ret {A} (a : A) : M A := λ σ, (Ok a, σ).

Definition bind {A B} (m : M A) (k : A → M B) : M B :=
  λ σ, match m σ with
       | (Ok a, σ') => k a σ'
       | (Raised e, σ') => (Raised e, σ')
       end.

Definition raise {A} (e : PyExc) : M A := λ σ, (Raised e, σ).

(** An expression without effect on the state. *)
Definition eval {A} (o : outcome A) : M A := λ σ, (o, σ).

(** [try: body except Exception as e: handler(e)]; an exception that does not
    derive from [Exception] passes through. Changes to the state made before
    the exception stay. *)
Definition try_except {A} (body : M A) (handler : PyExc → M A) : M A :=
  λ σ, match body σ with
       | (Ok a, σ') => (Ok a, σ')
       | (Raised e, σ') =>
           if exc_is_Exception e then handler e σ' else (Raised e, σ')
       end.

(** A dictionary display: a new object at the end of the store. *)
Definition new_dict (d : gmap string PyVal) : M loc :=
  λ σ, (Ok (length (heap σ)), mkState (heap σ ++ [d]) (stdout σ)).

(** The contents behind a reference. Python has no dangling reference; one
    that is out of the store reads as an empty dictionary. *)
Definition contents (σ : state) (l : loc) : gmap string PyVal :=
  default ∅ (heap σ !! l).

Definition deref (l : loc) : M (gmap string PyVal) :=
  λ σ, (Ok (contents σ l), σ).

(** [target.update(source)]: in place, the entries of [source] win. *)
Definition dict_update (target : loc) (source : gmap string PyVal) : M unit :=
  λ σ, (Ok tt, mkState (<[target := source ∪ contents σ target]> (heap σ)) (stdout σ)).

(** [print] of an argument list on a standard output that takes the line. *)
Definition print (args : list PyVal) : M unit :=
  λ σ, (Ok tt, mkState (heap σ) (stdout σ ++ [args])).

(** What [sys.stdout] does with a line: it takes it, or the write raises (a
    closed stream raises [ValueError], a broken pipe [OSError], a character
    outside the encoding [UnicodeEncodeError]). *)
Inductive stream :=
| Accepts
| Fails (e : PyExc).

(** [print] of an argument list on the given standard output. *)
Definition print_on (sys_stdout : stream) (args : list PyVal) : M unit :=
  match sys_stdout with
  | Accepts => print args
  | Fails e => raise e
  end.

End Eff.
Export Eff.

Notation "'let*' x ':=' m 'in' k" := (bind m (λ x, k))
  (at level 10, x name, m at level 100, k at level 200,
   format "'[v' 'let*'  x  ':='  m  'in' '/' k ']'").
Notation "m ';;;' k" := (bind m (λ _, k))
  (at level 100, k at level 200, right associativity).

(** ** The class [UpaiLLM] *)

Module UpaiLLM.

(** An instance: its three attributes, assigned in [__init__] and only read
    afterwards. [llm_params] refers to a dictionary in the store. *)
Record t := mk {
  llm_params : loc;
  llm_identifier : PyVal;
  access_token : PyVal
}.

(** [explicit or fallback] *)
Definition py_or (explicit : PyVal) (fallback : M PyVal) : M PyVal :=
  if truthy explicit then ret explicit else fallback.

(** [UpaiLLM(llm_identifier, access_token, llm_params)]; an argument left out
    is [PyNone] ([None] for [llm_params]). *)
Definition __init__ (llm_identifier access_token : PyVal) (llm_params : option loc)
    : M t :=
  let* self_llm_params :=
    match llm_params with
    | Some l =>
        let* d := deref l in
        if dict_truthy d then ret l else new_dict ∅
    | None => new_dict ∅
    end in
  let* self_llm_identifier :=
    py_or llm_identifier
      (let* d := deref self_llm_params in ret (dict_get d "model")) in
  let* self_access_token :=
    py_or access_token
      (let* d := deref self_llm_params in ret (dict_get d "access_token")) in
  if negb (truthy self_access_token) then
    raise (ValueError
      "Access token must be provided either directly or in the llm_params.")
  else if negb (truthy self_llm_identifier) then
    raise (ValueError
      "LLM model identifier must be provided either directly or in the llm_params.")
  else
    ret (mk self_llm_params self_llm_identifier self_access_token).

(** The dictionary display that opens [construct_request_payload]. *)
Definition base_payload (self : t) (prompt_sequences : list PyVal)
    : gmap string PyVal :=
  <["api_key" := access_token self]>
  (<["temperature" := PyFloat 0]>
  (<["messages" := PyList prompt_sequences]>
  (<["model" := llm_identifier self]> ∅))).

(** [self.construct_request_payload(prompt_sequences)] returns a reference to
    a new dictionary. *)
Definition construct_request_payload (self : t) (prompt_sequences : list PyVal)
    : M loc :=
  let* request_payload := new_dict (base_payload self prompt_sequences) in
  let* params := deref (llm_params self) in
  (if dict_truthy params then dict_update request_payload params else ret tt);;;
  ret request_payload.

(** [response.choices[0].message.content] *)
Definition response_content (response : PyVal) : outcome PyVal :=
  let! choices := getattr response "choices" in
  let! choice := first_item choices in
  let! message := getattr choice "message" in
  getattr message "content".

(** [messages[0]["content"]] *)
Definition original_query (messages : PyVal) : outcome PyVal :=
  let! message := first_item messages in
  item message "content".

(** [response.usage.to_dict() if hasattr(response, "usage") else None] *)
Definition response_usage (response : PyVal) : outcome PyVal :=
  if hasattr response "usage" then
    let! usage := getattr response "usage" in
    let! to_dict := getattr usage "to_dict" in
    call to_dict
  else Ok PyNone.

(** The element of the first comprehension, for one [(response, messages)]
    of the [zip]; the values of the display are evaluated in source order. *)
Definition success_record (pair : PyVal * PyVal) : outcome PyVal :=
  let '(response, messages) := pair in
  let! content := response_content response in
  let! query := original_query messages in
  let! usage := response_usage response in
  Ok (PyDict (<["usage" := usage]>
             (<["original_query" := query]>
             (<["content" := content]>
             (<["status" := PyBool true]> ∅))))).

(** The element of the comprehension in the handler. *)
Definition failure_record (e : PyExc) (messages : PyVal) : outcome PyVal :=
  let! query := original_query messages in
  Ok (PyDict (<["original_query" := query]>
             (<["error" := PyStr (exc_str e)]>
             (<["status" := PyBool false]> ∅)))).

Section WithService.

(** [litellm.batch_completion], called with the payload unpacked into
    keyword arguments: given the keyword arguments it
    returns a list (of response objects, or whatever the library puts there)
    or raises. *)
Variable batch_completion : gmap string PyVal → outcome (list PyVal).

(** [self.process_batch_prompts(prompt_sequences, debug_mode)], run with the
    given standard output. *)
Definition process_batch_prompts_on (sys_stdout : stream) (self : t)
    (prompt_sequences : list PyVal) (debug_mode : bool) : M (list PyVal) :=
  try_except
    (let* request_payload := construct_request_payload self prompt_sequences in
     let* kwargs := deref request_payload in
     let* llm_responses := eval (batch_completion kwargs) in
     (if debug_mode
      then print_on sys_stdout [PyStr "LLM raw response:"; PyList llm_responses]
      else ret tt);;;
     eval (comprehension success_record (zip llm_responses prompt_sequences)))
    (λ e, eval (comprehension (failure_record e) prompt_sequences)).

(** The method on a standard output that takes every line. *)
Definition process_batch_prompts (self : t) (prompt_sequences : list PyVal)
    (debug_mode : bool) : M (list PyVal) :=
  process_batch_prompts_on Accepts self prompt_sequences debug_mode.

End WithService.

End UpaiLLM.

(** ** The vocabulary of the contract *)

Module Contract.
Import UpaiLLM.

(** The two shapes of a result record. *)
Definition Success (content query usage : PyVal) : PyVal :=
  PyDict (<["usage" := usage]>
         (<["original_query" := query]>
         (<["content" := content]>
         (<["status" := PyBool true]> ∅)))).

Definition Failure (error : string) (query : PyVal) : PyVal :=
  PyDict (<["original_query" := query]>
         (<["error" := PyStr error]>
         (<["status" := PyBool false]> ∅))).

(** [record[key]], when [record] is a dictionary that has the key. *)
Definition field (record : PyVal) (key : string) : option PyVal :=
  match record with
  | PyDict d => d !! key
  | _ => None
  end.

Definition is_success (record : PyVal) : Prop :=
  field record "status" = Some (PyBool true).

Definition is_failure (record : PyVal) : Prop :=
  field record "status" = Some (PyBool false).

(** The content of the first message of a prompt sequence: the sequence is a
    list that starts with a dictionary holding the key [content]. *)
Definition first_message_content (messages : PyVal) : option PyVal :=
  match messages with
  | PyList (PyDict message :: _) => message !! "content"
  | _ => None
  end.

(** [response_with r content usage]: [r] is an object whose [choices] list
    starts with an object whose [message] is an object with the attribute
    [content]; it has no attribute [usage] and [usage] is [None], or its
    attribute [usage] is an object whose method [to_dict] returns [usage]. *)
Inductive response_with : PyVal → PyVal → PyVal → Prop :=
| response_without_usage cls attrs ccls cattrs rest mcls mattrs content :
    attrs !! "choices" = Some (PyList (PyObj ccls cattrs :: rest)) →
    cattrs !! "message" = Some (PyObj mcls mattrs) →
    mattrs !! "content" = Some content →
    attrs !! "usage" = None →
    response_with (PyObj cls attrs) content PyNone
| response_with_usage cls attrs ccls cattrs rest mcls mattrs content
      ucls uattrs usage :
    attrs !! "choices" = Some (PyList (PyObj ccls cattrs :: rest)) →
    cattrs !! "message" = Some (PyObj mcls mattrs) →
    mattrs !! "content" = Some content →
    attrs !! "usage" = Some (PyObj ucls uattrs) →
    uattrs !! "to_dict" = Some (PyMethodReturns usage) →
    response_with (PyObj cls attrs) content usage.

(** The dictionary the caller passed as [llm_params], empty when left out. *)
Definition params_of (σ : state) (llm_params : option loc) : gmap string PyVal :=
  match llm_params with
  | Some l => contents σ l
  | None => ∅
  end.

(** An argument counts as given when it is truthy: not [None], and for a
    string not empty. *)
Definition given (v : PyVal) : bool := truthy v.

(** The effective setting: the explicit argument if given, else the entry of
    [llm_params] under [key] ([None] when there is none). *)
Definition effective (explicit : PyVal) (params : gmap string PyVal)
    (key : string) : PyVal :=
  if given explicit then explicit else dict_get params key.

(** The payload entry under [key], as the contract words it: the entry of the
    extra parameters when they have one, else one of the four defaults. *)
Definition expected_entry (self : t) (prompt_sequences : list PyVal)
    (extra_params : gmap string PyVal) (key : string) : option PyVal :=
  match extra_params !! key with
  | Some v => Some v
  | None =>
      if decide (key = "model") then Some (llm_identifier self)
      else if decide (key = "messages") then Some (PyList prompt_sequences)
      else if decide (key = "temperature") then Some (PyFloat 0)
      else if decide (key = "api_key") then Some (access_token self)
      else None
  end.

(** The keyword arguments handed to the service: the stored extra parameters
    laid over the four defaults. *)
Definition submitted (σ : state) (self : t) (prompt_sequences : list PyVal)
    : gmap string PyVal :=
  contents σ (llm_params self) ∪ base_payload self prompt_sequences.

(** The state once the payload is built, and once the optional trace is
    printed. *)
Definition after_payload (σ : state) (self : t) (prompt_sequences : list PyVal)
    : state :=
  mkState (heap σ ++ [submitted σ self prompt_sequences]) (stdout σ).

Definition after_trace (σ : state) (debug_mode : bool) (responses : list PyVal)
    : state :=
  if debug_mode
  then mkState (heap σ)
               (stdout σ ++ [[PyStr "LLM raw response:"; PyList responses]])
  else σ.

(** What the handler of [process_batch_prompts] makes of an exception. *)
Definition handled (prompt_sequences : list PyVal) (e : PyExc)
    : outcome (list PyVal) :=
  if exc_is_Exception e
  then comprehension (failure_record e) prompt_sequences
  else Raised e.

(** Extracting the fields of a response raises. *)
Definition extraction_fails (response : PyVal) : Prop :=
  (∃ e, response_content response = Raised e)
  ∨ (∃ e, response_usage response = Raised e).

(** Whether [llm_params or {}] keeps the caller's dictionary. *)
Definition keeps_params (σ : state) (llm_params : option loc) : bool :=
  match llm_params with
  | Some l => dict_truthy (contents σ l)
  | None => false
  end.

(** The reference stored in [self.llm_params] and the state it is stored in. *)
Definition init_ref (σ : state) (llm_params : option loc) : loc :=
  match llm_params with
  | Some l => if dict_truthy (contents σ l) then l else length (heap σ)
  | None => length (heap σ)
  end.

Definition init_state (σ : state) (llm_params : option loc) : state :=
  if keeps_params σ llm_params then σ
  else mkState (heap σ ++ [∅]) (stdout σ).

(** A constructed adapter in a state: its dictionary is in the store and its
    two required settings are truthy. *)
Definition constructed (σ : state) (self : t) : Prop :=
  llm_params self < length (heap σ)
  ∧ truthy (access_token self) = true
  ∧ truthy (llm_identifier self) = true.

End Contract.
Export Contract.

(** ** Sample data *)

Module Sample.
Import UpaiLLM.

Definition params_model : gmap string PyVal := {[ "model" := PyStr "m" ]}.

Definition params_temperature : gmap string PyVal :=
  <["temperature" := PyFloat 0.9]>
  (<["access_token" := PyStr "T"]>
  (<["model" := PyStr "m"]> ∅)).

Definition params_messages : gmap string PyVal :=
  <["messages" := PyList []]> params_model.

(** The caller holds one [llm_params] dictionary, at reference [0]. *)
Definition store (params : gmap string PyVal) : state := mkState [params] [].

Definition adapter : t := mk 0 (PyStr "m") (PyStr "T").

Definition prompt (text : string) : PyVal :=
  PyList [PyDict (<["content" := PyStr text]> {[ "role" := PyStr "user" ]})].

Definition empty_prompt : PyVal := PyList [].

Definition usage_dict : PyVal := PyDict {[ "total_tokens" := PyInt 7 ]}.

Definition choices (text : string) : PyVal :=
  PyList [PyObj "Choices"
            {[ "message" := PyObj "Message" {[ "content" := PyStr text ]} ]}].

Definition response (text : string) : PyVal :=
  PyObj "ModelResponse"
    (<["usage" := PyObj "Usage" {[ "to_dict" := PyMethodReturns usage_dict ]}]>
     {[ "choices" := choices text ]}).

Definition response_no_usage (text : string) : PyVal :=
  PyObj "ModelResponse" {[ "choices" := choices text ]}.

Definition response_no_choices : PyVal :=
  PyObj "ModelResponse" {[ "choices" := PyList [] ]}.

Definition rate_limited : PyExc := mkExc "RateLimitError" true "rate limited".

Definition service_AB (_ : gmap string PyVal) : outcome (list PyVal) :=
  Ok [response "A"; response "B"].

Definition service_A (_ : gmap string PyVal) : outcome (list PyVal) :=
  Ok [response "A"].

Definition service_no_choices (_ : gmap string PyVal) : outcome (list PyVal) :=
  Ok [response "A"; response_no_choices].

Definition service_rate_limited (_ : gmap string PyVal) : outcome (list PyVal) :=
  Raised rate_limited.

(** The user interrupts the call: [KeyboardInterrupt] derives from
    [BaseException] only. *)
Definition service_interrupted (_ : gmap string PyVal) : outcome (list PyVal) :=
  Raised (mkExc "KeyboardInterrupt" false "").

(** [sys.stdout] has been closed. *)
Definition closed_stdout : stream :=
  Fails (ValueError "I/O operation on closed file.").

Definition params_token : gmap string PyVal :=
  <["access_token" := PyStr "T"]> params_model.



Definition service_ABC (_ : gmap string PyVal) : outcome (list PyVal) :=
  Ok [response "A"; response "B"; response_no_choices].

End Sample.

(** * Properties *)

Import UpaiLLM.
Local Open Scope list_scope.
Local Open Scope nat_scope.

(** ** The store *)

Lemma dict_truthy_false (d : gmap string PyVal) : dict_truthy d = false ↔ d = ∅.
Proof.
  unfold dict_truthy. rewrite negb_false_iff, Nat.eqb_eq.
  apply map_size_empty_iff.
Qed.

Lemma dict_truthy_insert (k : string) (v : PyVal) (d : gmap string PyVal) :
  dict_truthy (<[k := v]> d) = true.
Proof.
  destruct (dict_truthy (<[k := v]> d)) eqn:E; [done |].
  apply dict_truthy_false in E. by apply insert_non_empty in E.
Qed.

Lemma contents_old (h : list (gmap string PyVal)) (d : gmap string PyVal)
    (out out' : list (list PyVal)) (l : loc) :
  (l < length h)%nat → contents (mkState (h ++ [d]) out) l = contents (mkState h out') l.
Proof. intros Hl. unfold contents. simpl. by rewrite lookup_app_l. Qed.

Lemma contents_last (h : list (gmap string PyVal)) (d : gmap string PyVal)
    (out : list (list PyVal)) :
  contents (mkState (h ++ [d]) out) (length h) = d.
Proof. unfold contents. simpl. by rewrite list_lookup_middle. Qed.

Lemma contents_dangling (σ : state) (l : loc) :
  (length (heap σ) ≤ l)%nat → contents σ l = ∅.
Proof. intros Hl. unfold contents. by rewrite lookup_ge_None_2. Qed.

Lemma insert_last (h : list (gmap string PyVal)) (d d' : gmap string PyVal) :
  <[length h := d']> (h ++ [d]) = h ++ [d'].
Proof.
  rewrite insert_app_r_alt by lia. by rewrite Nat.sub_diag.
Qed.

Lemma base_payload_truthy self ps : dict_truthy (base_payload self ps) = true.
Proof. apply dict_truthy_insert. Qed.

(** One run of [construct_request_payload]: the payload is the last object of
    the store and nothing else changes. *)
Lemma construct_request_payload_run (self : t) (ps : list PyVal) (σ : state) :
  construct_request_payload self ps σ =
    (Ok (length (heap σ)),
     mkState (heap σ ++ [contents σ (llm_params self) ∪ base_payload self ps])
             (stdout σ)).
Proof.
  destruct σ as [h out].
  unfold construct_request_payload, bind, new_dict, deref, dict_update, ret.
  cbn [heap stdout].
  set (b := base_payload self ps).
  destruct (lt_eq_lt_dec (llm_params self) (length h)) as [[Hlt | Heq] | Hgt].
  - rewrite (contents_old h b out out) by done.
    destruct (dict_truthy (contents (mkState h out) (llm_params self))) eqn:E.
    + cbn [heap stdout]. by rewrite contents_last, insert_last.
    + apply dict_truthy_false in E. rewrite E. by rewrite (left_id_L ∅ (∪)).
  - rewrite Heq, contents_last.
    rewrite (contents_dangling (mkState h out)) by (simpl; lia).
    subst b. rewrite base_payload_truthy. cbn [heap stdout].
    rewrite contents_last, insert_last.
    by rewrite (left_id_L ∅ (∪)), (idemp_L (∪)).
  - rewrite (contents_dangling (mkState (h ++ [b]) out))
      by (simpl; rewrite length_app; simpl; lia).
    rewrite (contents_dangling (mkState h out)) by (simpl; lia).
    replace (dict_truthy ∅) with false by done.
    by rewrite (left_id_L ∅ (∪)).
Qed.

(** ** Comprehensions *)

Section Comprehension.
Context {A B : Type} (f : A → outcome B).

Lemma comprehension_Ok_inv (xs : list A) (ys : list B) :
  comprehension f xs = Ok ys → Forall2 (λ x y, f x = Ok y) xs ys.
Proof.
  revert ys. induction xs as [| x xs IH]; intros ys; simpl.
  - intros [= <-]. constructor.
  - destruct (f x) as [y |] eqn:Hx; simpl; [| done].
    destruct (comprehension f xs) as [ys' |]; simpl; [| done].
    intros [= <-]. constructor; auto.
Qed.

Lemma comprehension_Ok (xs : list A) (ys : list B) :
  Forall2 (λ x y, f x = Ok y) xs ys → comprehension f xs = Ok ys.
Proof.
  induction 1 as [| x y xs ys Hx _ IH]; simpl; [done |].
  by rewrite Hx, IH.
Qed.

Lemma comprehension_Raised_inv (xs : list A) (e : PyExc) :
  comprehension f xs = Raised e → ∃ x, x ∈ xs ∧ f x = Raised e.
Proof.
  induction xs as [| x xs IH]; simpl; [done |].
  destruct (f x) as [y |] eqn:Hx; simpl.
  - destruct (comprehension f xs) as [ys |]; simpl; [done |].
    intros [= <-]. destruct IH as (x' & Hin & Hx'); [done |].
    exists x'. split; [by right | done].
  - intros [= <-]. exists x. split; [by left | done].
Qed.

Lemma comprehension_Exists_Raised (xs : list A) :
  Exists (λ x, ∃ e, f x = Raised e) xs → ∃ e, comprehension f xs = Raised e.
Proof.
  induction 1 as [x xs [e He] | x xs _ [e IH]]; simpl.
  - rewrite He. by exists e.
  - destruct (f x) as [y |]; simpl; [| by eexists].
    rewrite IH. by exists e.
Qed.

End Comprehension.

(** ** The fields of a record *)

Lemma original_query_Ok (messages q : PyVal) :
  original_query messages = Ok q ↔ first_message_content messages = Some q.
Proof.
  unfold original_query, first_message_content.
  destruct messages as [| | | | s | l | | | |]; simpl; try (split; done).
  - destruct s; simpl; split; done.
  - destruct l as [| m l]; simpl; [split; done |].
    destruct m; simpl; try (split; done).
    destruct (_ !! "content"); split; congruence.
Qed.

Lemma original_query_Raised (messages : PyVal) (e : PyExc) :
  original_query messages = Raised e → first_message_content messages = None.
Proof.
  intros He. destruct (first_message_content messages) as [q |] eqn:Hq; [| done].
  apply original_query_Ok in Hq. congruence.
Qed.

Lemma response_with_content (r c u : PyVal) :
  response_with r c u → response_content r = Ok c.
Proof.
  unfold response_content.
  destruct 1 as [? ? ? ? ? ? ? ? H1 H2 H3 _ | ? ? ? ? ? ? ? ? ? ? ? H1 H2 H3 _ _];
    simpl; rewrite H1; simpl; rewrite H2; simpl; by rewrite H3.
Qed.

Lemma response_with_usage_Ok (r c u : PyVal) :
  response_with r c u → response_usage r = Ok u.
Proof.
  unfold response_usage, hasattr.
  destruct 1 as [? ? ? ? ? ? ? ? _ _ _ H4 | ? ? ? ? ? ? ? ? ? ? ? _ _ _ H4 H5];
    simpl; rewrite H4; simpl; [done |]. by rewrite H5.
Qed.

Lemma success_record_Ok (r m c q u : PyVal) :
  response_with r c u → first_message_content m = Some q →
  success_record (r, m) = Ok (Success c q u).
Proof.
  intros Hr Hq. unfold success_record.
  rewrite (response_with_content r c u Hr). simpl.
  apply original_query_Ok in Hq. rewrite Hq. simpl.
  by rewrite (response_with_usage_Ok r c u Hr).
Qed.

Lemma success_record_inv (r m record : PyVal) :
  success_record (r, m) = Ok record →
  ∃ c q u, response_content r = Ok c ∧ first_message_content m = Some q
    ∧ response_usage r = Ok u ∧ record = Success c q u.
Proof.
  unfold success_record.
  destruct (response_content r) as [c |]; simpl; [| done].
  destruct (original_query m) as [q |] eqn:Hq; simpl; [| done].
  destruct (response_usage r) as [u |]; simpl; [| done].
  intros [= <-]. exists c, q, u. by rewrite <- original_query_Ok.
Qed.

Lemma failure_record_Ok (e : PyExc) (m q : PyVal) :
  first_message_content m = Some q →
  failure_record e m = Ok (Failure (exc_str e) q).
Proof.
  intros Hq. unfold failure_record.
  apply original_query_Ok in Hq. by rewrite Hq.
Qed.

Lemma failure_record_inv (e : PyExc) (m record : PyVal) :
  failure_record e m = Ok record →
  ∃ q, first_message_content m = Some q ∧ record = Failure (exc_str e) q.
Proof.
  unfold failure_record.
  destruct (original_query m) as [q |] eqn:Hq; simpl; [| done].
  intros [= <-]. exists q. by rewrite <- original_query_Ok.
Qed.

(** ** What the mapping can raise *)

Lemma getattr_raises (v : PyVal) (name : string) (e : PyExc) :
  getattr v name = Raised e → exc_is_Exception e = true.
Proof.
  unfold getattr. destruct v; try (by intros [= <-]).
  destruct (_ !! name); [done | by intros [= <-]].
Qed.

Lemma first_item_raises (v : PyVal) (e : PyExc) :
  first_item v = Raised e → exc_is_Exception e = true.
Proof.
  unfold first_item. destruct v as [| | | | s | l | | | |]; try (by intros [= <-]).
  - destruct s; [by intros [= <-] | done].
  - destruct l; [by intros [= <-] | done].
Qed.

Lemma item_raises (v : PyVal) (key : string) (e : PyExc) :
  item v key = Raised e → exc_is_Exception e = true.
Proof.
  unfold item. destruct v; try (by intros [= <-]).
  destruct (_ !! key); [done | by intros [= <-]].
Qed.

Lemma call_raises (v : PyVal) (e : PyExc) :
  call v = Raised e → exc_is_Exception e = true.
Proof. unfold call. destruct v; try done; by intros [= <-]. Qed.

Lemma and_then_raises {A B} (o : outcome A) (k : A → outcome B) (e : PyExc) :
  and_then o k = Raised e → o = Raised e ∨ ∃ a, o = Ok a ∧ k a = Raised e.
Proof.
  destruct o as [a |]; simpl; [intros H; right; by exists a | intros [= ->]; by left].
Qed.

Lemma original_query_raises (m : PyVal) (e : PyExc) :
  original_query m = Raised e → exc_is_Exception e = true.
Proof.
  unfold original_query. intros [H | (x & _ & H)]%and_then_raises.
  - by eapply first_item_raises.
  - by eapply item_raises.
Qed.

Lemma response_content_raises (r : PyVal) (e : PyExc) :
  response_content r = Raised e → exc_is_Exception e = true.
Proof.
  unfold response_content.
  intros [H | (x & _ & [H | (y & _ & [H | (z & _ & H)]%and_then_raises)]%and_then_raises)]%and_then_raises;
    eauto using getattr_raises, first_item_raises.
Qed.

Lemma response_usage_raises (r : PyVal) (e : PyExc) :
  response_usage r = Raised e → exc_is_Exception e = true.
Proof.
  unfold response_usage. destruct (hasattr r "usage"); [| done].
  intros [H | (x & _ & [H | (y & _ & H)]%and_then_raises)]%and_then_raises;
    eauto using getattr_raises, call_raises.
Qed.

Lemma success_record_raises (p : PyVal * PyVal) (e : PyExc) :
  success_record p = Raised e → exc_is_Exception e = true.
Proof.
  destruct p as [r m]. unfold success_record.
  intros [H | (x & _ & [H | (y & _ & [H | (z & _ & H)]%and_then_raises)]%and_then_raises)]%and_then_raises;
    eauto using response_content_raises, original_query_raises, response_usage_raises.
  done.
Qed.

(** ** One run of [process_batch_prompts] *)

Section Run.
Variable batch_completion : gmap string PyVal → outcome (list PyVal).

Lemma process_batch_prompts_run (self : t) (ps : list PyVal) (dbg : bool) (σ : state) :
  process_batch_prompts batch_completion self ps dbg σ =
    match batch_completion (submitted σ self ps) with
    | Raised e => (handled ps e, after_payload σ self ps)
    | Ok rs =>
        (match comprehension success_record (zip rs ps) with
         | Ok records => Ok records
         | Raised e => handled ps e
         end,
         after_trace (after_payload σ self ps) dbg rs)
    end.
Proof.
  unfold process_batch_prompts, process_batch_prompts_on, print_on, try_except,
    bind at 1.
  rewrite construct_request_payload_run.
  unfold bind, deref, eval, handled, after_payload, submitted.
  rewrite contents_last.
  destruct (batch_completion _) as [rs | e]; cbn [fst snd].
  - unfold after_trace.
    destruct dbg; unfold print, ret; cbn [heap stdout];
      destruct (comprehension success_record _) as [records | e]; try done;
      by destruct (exc_is_Exception e).
  - by destruct (exc_is_Exception e).
Qed.

End Run.

(** ** The request payload *)

Lemma submitted_lookup (σ : state) (self : t) (ps : list PyVal) (key : string) :
  submitted σ self ps !! key =
    expected_entry self ps (contents σ (llm_params self)) key.
Proof.
  unfold submitted, expected_entry. rewrite lookup_union.
  destruct (contents σ (llm_params self) !! key) as [v |].
  - by destruct (base_payload self ps !! key).
  - rewrite (left_id None _). unfold base_payload.
    repeat case_decide; simplify_map_eq; done.
Qed.

(** C6: the payload holds, under every key, the entry of the stored extra
    parameters when they have one and else the default ([model]: the stored
    identifier, [messages]: the input, [temperature]: 0.0, [api_key]: the
    stored token); with the extra parameters
    [{"model": "m", "access_token": "T", "temperature": 0.9}] and the explicit
    identifier ["m"] and token ["T"], the payload has [temperature] 0.9,
    [model] ["m"] and [api_key] ["T"]. *)
Theorem construct_request_payload_overlay :
  (∀ (self : t) (ps : list PyVal) (σ : state),
     ∃ σ', construct_request_payload self ps σ = (Ok (length (heap σ)), σ')
       ∧ ∀ key, contents σ' (length (heap σ)) !! key =
           expected_entry self ps (contents σ (llm_params self)) key)
  ∧ (__init__ (PyStr "m") (PyStr "T") (Some 0) (Sample.store Sample.params_temperature)
       = (Ok Sample.adapter, Sample.store Sample.params_temperature)
     ∧ ∃ σ', construct_request_payload Sample.adapter [Sample.prompt "q"]
               (Sample.store Sample.params_temperature) = (Ok 1, σ')
       ∧ contents σ' 1 !! "temperature" = Some (PyFloat 0.9)
       ∧ contents σ' 1 !! "model" = Some (PyStr "m")
       ∧ contents σ' 1 !! "api_key" = Some (PyStr "T")
       ∧ contents σ' 1 !! "messages" = Some (PyList [Sample.prompt "q"])).
Proof.
  split.
  - intros self ps σ. rewrite construct_request_payload_run.
    eexists. split; [done |]. intros key.
    rewrite contents_last. apply submitted_lookup.
  - split; [by vm_compute |].
    rewrite construct_request_payload_run. eexists. split; [done |].
    by vm_compute.
Qed.

(** C7: two calls with the same input, one after the other, return two
    distinct dictionaries with the same entries; no object that was in the
    store before is changed (so [self.llm_params] keeps its entries), nothing
    is printed, and a call in any other state in which [self.llm_params] has
    the same entries builds the same payload. *)
Theorem construct_request_payload_idempotent (self : t) (ps : list PyVal) (σ : state) :
  llm_params self < length (heap σ) →
  ∃ r1 σ1 r2 σ2,
    construct_request_payload self ps σ = (Ok r1, σ1)
    ∧ construct_request_payload self ps σ1 = (Ok r2, σ2)
    ∧ r1 ≠ r2
    ∧ contents σ2 r2 = contents σ1 r1
    ∧ contents σ2 r1 = contents σ1 r1
    ∧ (∀ l, l < length (heap σ) →
         contents σ1 l = contents σ l ∧ contents σ2 l = contents σ l)
    ∧ stdout σ1 = stdout σ ∧ stdout σ2 = stdout σ
    ∧ (∀ τ, contents τ (llm_params self) = contents σ (llm_params self) →
         ∃ r τ', construct_request_payload self ps τ = (Ok r, τ')
           ∧ contents τ' r = contents σ1 r1).
Proof.
  intros Hl. destruct σ as [h out]. cbn [heap] in Hl.
  set (p := submitted (mkState h out) self ps).
  exists (length h), (mkState (h ++ [p]) out).
  exists (length (h ++ [p])), (mkState ((h ++ [p]) ++ [p]) out).
  assert (Hsame : contents (mkState (h ++ [p]) out) (llm_params self)
                  = contents (mkState h out) (llm_params self))
    by by apply contents_old.
  repeat split.
  - by rewrite construct_request_payload_run.
  - rewrite construct_request_payload_run. cbn [heap stdout].
    by rewrite Hsame.
  - rewrite length_app. simpl. lia.
  - by rewrite !contents_last.
  - rewrite contents_last.
    rewrite (contents_old (h ++ [p]) p out out) by (rewrite length_app; simpl; lia).
    apply contents_last.
  - by apply contents_old.
  - cbn [heap] in *.
    rewrite (contents_old (h ++ [p]) p out out) by (rewrite length_app; simpl; lia).
    by apply contents_old.
  - intros τ Hτ. rewrite construct_request_payload_run.
    eexists _, _. split; [done |].
    rewrite !contents_last. by rewrite Hτ.
Qed.

Lemma construct_request_payload_idempotent_sample :
  ∃ r1 σ1 r2 σ2,
    construct_request_payload Sample.adapter [Sample.prompt "q"]
      (Sample.store Sample.params_model) = (Ok r1, σ1)
    ∧ construct_request_payload Sample.adapter [Sample.prompt "q"] σ1 = (Ok r2, σ2)
    ∧ r1 ≠ r2
    ∧ contents σ2 r2 = contents σ1 r1
    ∧ contents σ2 0 = Sample.params_model.
Proof.
  destruct (construct_request_payload_idempotent Sample.adapter [Sample.prompt "q"]
              (Sample.store Sample.params_model))
    as (r1 & σ1 & r2 & σ2 & H1 & H2 & Hne & Heq & _ & Hold & _).
  - vm_compute. lia.
  - exists r1, σ1, r2, σ2.
    split; [exact H1 |]. split; [exact H2 |]. split; [exact Hne |].
    split; [exact Heq |].
    destruct (Hold 0) as [_ H0]; [vm_compute; lia |].
    rewrite H0. reflexivity.
Defined.

(** ** Records and the prompts they come from *)

Lemma field_Success (c q u : PyVal) :
  field (Success c q u) "status" = Some (PyBool true)
  ∧ field (Success c q u) "content" = Some c
  ∧ field (Success c q u) "original_query" = Some q
  ∧ field (Success c q u) "usage" = Some u.
Proof. by repeat split. Qed.

Lemma field_Failure (err : string) (q : PyVal) :
  field (Failure err q) "status" = Some (PyBool false)
  ∧ field (Failure err q) "error" = Some (PyStr err)
  ∧ field (Failure err q) "original_query" = Some q.
Proof. by repeat split. Qed.

Lemma handled_Ok_inv (ps records : list PyVal) (e : PyExc) :
  handled ps e = Ok records →
  exc_is_Exception e = true
  ∧ Forall2 (λ m record, ∃ q, first_message_content m = Some q
                            ∧ record = Failure (exc_str e) q) ps records.
Proof.
  unfold handled. destruct (exc_is_Exception e); [| done].
  intros H%comprehension_Ok_inv. split; [done |].
  eapply Forall2_impl; [exact H |]. intros m record Hm.
  by apply failure_record_inv.
Qed.

Lemma handled_Ok (ps : list PyVal) (e : PyExc) :
  exc_is_Exception e = true →
  Forall (λ m, is_Some (first_message_content m)) ps →
  ∃ records, handled ps e = Ok records.
Proof.
  intros He Hps. unfold handled. rewrite He.
  induction Hps as [| m ps [q Hq] _ [records IH]]; simpl; [by eexists |].
  rewrite (failure_record_Ok e m q Hq). simpl. rewrite IH. simpl. by eexists.
Qed.

Section Records.
Variable batch_completion : gmap string PyVal → outcome (list PyVal).

(** Every returned record sits at the position of a prompt sequence that has
    a first message with a content, and carries that content. *)
Lemma process_batch_prompts_queries (self : t) (ps : list PyVal) (dbg : bool)
    (σ : state) (records : list PyVal) :
  fst (process_batch_prompts batch_completion self ps dbg σ) = Ok records →
  ∀ i record, records !! i = Some record →
    ∃ m q, ps !! i = Some m ∧ first_message_content m = Some q
      ∧ field record "original_query" = Some q.
Proof.
  rewrite process_batch_prompts_run.
  assert (Hfail : ∀ e, handled ps e = Ok records →
    ∀ i record, records !! i = Some record →
      ∃ m q, ps !! i = Some m ∧ first_message_content m = Some q
        ∧ field record "original_query" = Some q).
  { intros e [_ H]%handled_Ok_inv i record Hi.
    destruct (Forall2_lookup_r _ _ _ _ _ H Hi) as (m & Hm & q & Hq & ->).
    exists m, q. by repeat split. }
  destruct (batch_completion _) as [rs | e]; cbn [fst]; [| by apply Hfail].
  destruct (comprehension success_record (zip rs ps)) as [records' | e] eqn:Hc;
    [| by apply Hfail].
  intros [= ->] i record Hi.
  apply comprehension_Ok_inv in Hc.
  destruct (Forall2_lookup_r _ _ _ _ _ Hc Hi) as ([r m] & Hz & Hrec).
  apply lookup_zip_with_Some in Hz as (r' & m' & [= <- <-] & _ & Hm).
  apply success_record_inv in Hrec as (c & q & u & _ & Hq & _ & ->).
  exists m, q. by repeat split.
Qed.

End Records.

(** ** Construction *)

Lemma contents_init (σ : state) (params : option loc) :
  contents (init_state σ params) (init_ref σ params) = params_of σ params.
Proof.
  destruct σ as [h out].
  unfold init_state, init_ref, keeps_params, params_of.
  destruct params as [l |]; [| by rewrite contents_last].
  destruct (dict_truthy (contents (mkState h out) l)) eqn:E; [done |].
  apply dict_truthy_false in E. rewrite E. cbn [heap stdout].
  by rewrite contents_last.
Qed.

Lemma init_ref_valid (σ : state) (params : option loc) :
  init_ref σ params < length (heap (init_state σ params)).
Proof.
  destruct σ as [h out].
  unfold init_state, init_ref, keeps_params.
  destruct params as [l |].
  - destruct (dict_truthy (contents (mkState h out) l)) eqn:E; cbn [heap].
    + destruct (decide (l < length h)) as [| Hge]; [done |].
      rewrite contents_dangling in E by (cbn [heap]; lia). done.
    + rewrite length_app. simpl. lia.
  - cbn [heap]. rewrite length_app. simpl. lia.
Qed.

Lemma init_run (ident tok : PyVal) (params : option loc) (σ : state) :
  __init__ ident tok params σ =
    (if negb (truthy (effective tok (params_of σ params) "access_token")) then
       Raised (ValueError
         "Access token must be provided either directly or in the llm_params.")
     else if negb (truthy (effective ident (params_of σ params) "model")) then
       Raised (ValueError
         "LLM model identifier must be provided either directly or in the llm_params.")
     else Ok (mk (init_ref σ params)
                 (effective ident (params_of σ params) "model")
                 (effective tok (params_of σ params) "access_token")),
     init_state σ params).
Proof.
  assert (Hfirst :
    (match params with
     | Some l => let* d := deref l in
                 if dict_truthy d then ret l else new_dict ∅
     | None => new_dict ∅
     end) σ = (Ok (init_ref σ params), init_state σ params)).
  { unfold init_ref, init_state, keeps_params.
    destruct params as [l |]; [| done].
    unfold bind, deref. by destruct (dict_truthy (contents σ l)). }
  unfold __init__. unfold bind at 1. rewrite Hfirst.
  pose proof (contents_init σ params) as Hc.
  unfold effective, given, py_or, bind, deref, ret, raise.
  destruct (truthy ident), (truthy tok); rewrite ?Hc;
    repeat match goal with |- context [negb ?b] => destruct b; simpl end; done.
Qed.

(** C4: construction raises exactly when the effective access token or the
    effective model identifier is falsy (for a string or [None]: empty or
    absent), and then raises a [ValueError] and returns no instance; otherwise
    it returns an instance that holds the two effective settings and a valid
    reference to the entries of [llm_params]. In both cases nothing is printed
    and the store is unchanged, or extended by one empty dictionary. *)
Theorem init_raises_iff (ident tok : PyVal) (params : option loc) (σ : state) :
  let d := params_of σ params in
  let r := __init__ ident tok params σ in
  ((∃ e, fst r = Raised e) ↔
     truthy (effective tok d "access_token") = false
     ∨ truthy (effective ident d "model") = false)
  ∧ (∀ e, fst r = Raised e → exc_class e = "ValueError")
  ∧ (∀ self, fst r = Ok self →
       constructed (snd r) self
       ∧ self = mk (llm_params self) (effective ident d "model")
                   (effective tok d "access_token")
       ∧ contents (snd r) (llm_params self) = d)
  ∧ stdout (snd r) = stdout σ
  ∧ (snd r = σ ∨ heap (snd r) = heap σ ++ [∅])
  ∧ (∀ s, truthy (PyStr s) = false ↔ s = "")
  ∧ truthy PyNone = false.
Proof.
  intros d r. subst d r. rewrite init_run. cbn [fst snd].
  set (etok := effective tok _ _). set (eid := effective ident _ _).
  split; [| split; [| split; [| split; [| split; [| split]]]]].
  - destruct (truthy etok), (truthy eid); simpl; split;
      try (intros [e [=]]); try (intros [[=] | [=]]); eauto.
  - intros e. destruct (truthy etok), (truthy eid); simpl; by intros [= <-].
  - intros self. destruct (truthy etok) eqn:Ht, (truthy eid) eqn:Hi; simpl;
      intros [= <-]. cbn [llm_params access_token llm_identifier].
    repeat split; try done.
    + apply init_ref_valid.
    + apply contents_init.
  - unfold init_state. by destruct (keeps_params σ params).
  - unfold init_state. destruct (keeps_params σ params); [by left | by right].
  - intros s. destruct s; simpl; split; done.
  - done.
Qed.



(** ** The batch call *)

Lemma is_success_Success (c q u : PyVal) : is_success (Success c q u).
Proof. done. Qed.

Lemma is_failure_Failure (err : string) (q : PyVal) : is_failure (Failure err q).
Proof. done. Qed.

Lemma handled_failures (ps records : list PyVal) (e : PyExc) :
  handled ps e = Ok records →
  Forall is_failure records ∧ length records = length ps.
Proof.
  intros [_ H]%handled_Ok_inv. split.
  - apply Forall_forall. intros record Hin.
    apply list_elem_of_lookup in Hin as [i Hi].
    destruct (Forall2_lookup_r _ _ _ _ _ H Hi) as (m & _ & q & _ & ->).
    apply is_failure_Failure.
  - symmetry. by eapply Forall2_length.
Qed.

Lemma comprehension_success_raises (ps : list (PyVal * PyVal)) (e : PyExc) :
  comprehension success_record ps = Raised e → exc_is_Exception e = true.
Proof.
  intros (p & _ & Hp)%comprehension_Raised_inv. by eapply success_record_raises.
Qed.

Section Batch.
Variable batch_completion : gmap string PyVal → outcome (list PyVal).

(** C1, as the code has it: when every prompt sequence has a first message
    with a content, the service raises nothing outside [Exception] and
    returns, when it returns, at least as many responses as there are prompt
    sequences, the call returns (it does not raise) one record per prompt
    sequence, the record at each position carrying the content of the first
    message of the prompt sequence at that position. *)
Theorem process_batch_prompts_returns (self : t) (ps : list PyVal) (dbg : bool)
    (σ : state) :
  Forall (λ m, is_Some (first_message_content m)) ps →
  (∀ e, batch_completion (submitted σ self ps) = Raised e →
        exc_is_Exception e = true) →
  (∀ rs, batch_completion (submitted σ self ps) = Ok rs →
         length ps ≤ length rs) →
  ∃ records,
    fst (process_batch_prompts batch_completion self ps dbg σ) = Ok records
    ∧ length records = length ps
    ∧ ∀ i record, records !! i = Some record →
        ∃ m q, ps !! i = Some m ∧ first_message_content m = Some q
          ∧ field record "original_query" = Some q.
Proof.
  intros Hps Hexc Hlen.
  assert (H : ∃ records,
    fst (process_batch_prompts batch_completion self ps dbg σ) = Ok records
    ∧ length records = length ps).
  { rewrite process_batch_prompts_run.
    destruct (batch_completion _) as [rs | e]; cbn [fst].
    - destruct (comprehension success_record (zip rs ps)) as [records | e] eqn:Hc.
      + exists records. split; [done |].
        apply comprehension_Ok_inv, Forall2_length in Hc.
        rewrite <- Hc, length_zip_with. specialize (Hlen rs eq_refl). lia.
      + apply comprehension_success_raises in Hc.
        destruct (handled_Ok ps e Hc Hps) as [records Hr].
        exists records. split; [done |]. by apply handled_failures in Hr as [_ ?].
    - destruct (handled_Ok ps e (Hexc e eq_refl) Hps) as [records Hr].
      exists records. split; [done |]. by apply handled_failures in Hr as [_ ?]. }
  destruct H as (records & Hr & Hl). exists records.
  split; [done |]. split; [done |].
  by eapply process_batch_prompts_queries.
Qed.

(** C2, as the code has it: when every prompt sequence has a first message
    with a content and the service raises an instance [e] of a class derived
    from [Exception], the call returns one Failure record per prompt sequence,
    in input order, each with the error [str(e)] and the content of the first
    message of its prompt sequence. *)
Theorem failure_records_on_exception (self : t) (ps : list PyVal) (dbg : bool)
    (σ : state) (e : PyExc) :
  Forall (λ m, is_Some (first_message_content m)) ps →
  batch_completion (submitted σ self ps) = Raised e →
  exc_is_Exception e = true →
  ∃ records,
    fst (process_batch_prompts batch_completion self ps dbg σ) = Ok records
    ∧ Forall2 (λ m record, ∃ q, first_message_content m = Some q
                             ∧ record = Failure (exc_str e) q) ps records.
Proof.
  intros Hps Hbc He. rewrite process_batch_prompts_run, Hbc. cbn [fst].
  destruct (handled_Ok ps e He Hps) as [records Hr].
  exists records. split; [done |]. by apply handled_Ok_inv in Hr as [_ ?].
Qed.


(** C10: the records of a call that returns are all Success records or all
    Failure records, one per prompt sequence in the second case; and when
    the service has returned and extracting the fields of one of the paired
    responses raises, they are all Failure records. *)
Theorem process_batch_prompts_all_or_nothing (self : t) (ps : list PyVal)
    (dbg : bool) (σ : state) (records : list PyVal) :
  fst (process_batch_prompts batch_completion self ps dbg σ) = Ok records →
  (Forall is_success records
   ∨ (Forall is_failure records ∧ length records = length ps))
  ∧ (∀ rs, batch_completion (submitted σ self ps) = Ok rs →
       Exists (λ p, extraction_fails p.1) (zip rs ps) →
       Forall is_failure records ∧ length records = length ps).
Proof.
  rewrite process_batch_prompts_run.
  destruct (batch_completion _) as [rs | e]; cbn [fst].
  - destruct (comprehension success_record (zip rs ps)) as [records' | e] eqn:Hc.
    + intros [= ->]. split.
      * left. apply comprehension_Ok_inv in Hc.
        apply Forall_forall. intros record Hin.
        apply list_elem_of_lookup in Hin as [i Hi].
        destruct (Forall2_lookup_r _ _ _ _ _ Hc Hi) as ([r m] & _ & Hrec).
        apply success_record_inv in Hrec as (c & q & u & _ & _ & _ & ->).
        apply is_success_Success.
      * intros rs' [= <-] Hex. exfalso.
        assert (He : ∃ e, comprehension success_record (zip rs ps) = Raised e).
        { apply comprehension_Exists_Raised.
          eapply Exists_impl; [exact Hex |].
          intros [r m] [[e He] | [e He]]; simpl in He; unfold success_record.
          - rewrite He. by exists e.
          - destruct (response_content r); simpl; [| by eexists].
            destruct (original_query m); simpl; [| by eexists].
            rewrite He. by exists e. }
        destruct He as [e He]. congruence.
    + intros Hh. apply handled_failures in Hh. split; [by right |]. done.
  - intros Hh. apply handled_failures in Hh. split; [by right |]. done.
Qed.

End Batch.

(** ** The batch call on sample batches *)


Lemma sample_response_with (text : string) :
  response_with (Sample.response text) (PyStr text) Sample.usage_dict.
Proof. eapply response_with_usage; done. Qed.

(** C1 fails as stated: an adapter built by [__init__]; a service that
    returns one response for two prompt sequences gives one record; with an
    empty prompt sequence the handler itself raises; an exception outside
    [Exception] passes through. *)
Lemma process_batch_prompts_short_or_raising :
  __init__ PyNone (PyStr "T") (Some 0) (Sample.store Sample.params_model)
    = (Ok Sample.adapter, Sample.store Sample.params_model)
  ∧ fst (process_batch_prompts Sample.service_A Sample.adapter
           [Sample.prompt "q1"; Sample.prompt "q2"] false
           (Sample.store Sample.params_model))
    = Ok [Success (PyStr "A") (PyStr "q1") Sample.usage_dict]
  ∧ fst (process_batch_prompts Sample.service_rate_limited Sample.adapter
           [Sample.empty_prompt] false (Sample.store Sample.params_model))
    = Raised (IndexError "list index out of range")
  ∧ fst (process_batch_prompts Sample.service_interrupted Sample.adapter
           [Sample.prompt "q1"] false (Sample.store Sample.params_model))
    = Raised (mkExc "KeyboardInterrupt" false "").
Proof. repeat split; by vm_compute. Qed.

Lemma process_batch_prompts_returns_sample :
  ∃ records,
    fst (process_batch_prompts Sample.service_AB Sample.adapter
           [Sample.prompt "q1"; Sample.prompt "q2"] true
           (Sample.store Sample.params_model)) = Ok records
    ∧ length records = 2.
Proof.
  destruct (process_batch_prompts_returns Sample.service_AB Sample.adapter
              [Sample.prompt "q1"; Sample.prompt "q2"] true
              (Sample.store Sample.params_model))
    as (records & Hr & Hl & _).
  - repeat (constructor; [by eexists |]). constructor.
  - intros e. unfold Sample.service_AB. discriminate.
  - intros rs. unfold Sample.service_AB. intros [= <-]. vm_compute. lia.
  - exists records. split; [exact Hr | exact Hl].
Defined.

(** C2 fails as stated: the service raises and one prompt sequence is empty;
    the comprehension of the handler raises [IndexError]. *)
Lemma failure_handler_raises_on_empty_prompt :
  fst (process_batch_prompts Sample.service_rate_limited Sample.adapter
         [Sample.prompt "q1"; Sample.empty_prompt] false
         (Sample.store Sample.params_model))
    = Raised (IndexError "list index out of range").
Proof. by vm_compute. Qed.

Lemma failure_records_on_exception_sample :
  ∃ records,
    fst (process_batch_prompts Sample.service_rate_limited Sample.adapter
           [Sample.prompt "q1"; Sample.prompt "q2"; Sample.prompt "q3"] false
           (Sample.store Sample.params_model)) = Ok records
    ∧ Forall2 (λ m record, ∃ q, first_message_content m = Some q
                             ∧ record = Failure "rate limited" q)
        [Sample.prompt "q1"; Sample.prompt "q2"; Sample.prompt "q3"] records.
Proof.
  apply (failure_records_on_exception Sample.service_rate_limited Sample.adapter
           [Sample.prompt "q1"; Sample.prompt "q2"; Sample.prompt "q3"] false
           (Sample.store Sample.params_model) Sample.rate_limited).
  - repeat (constructor; [by eexists |]). constructor.
  - reflexivity.
  - reflexivity.
Defined.



Lemma process_batch_prompts_all_or_nothing_sample :
  Forall is_failure [Failure "list index out of range" (PyStr "q1");
                     Failure "list index out of range" (PyStr "q2")]
  ∧ length [Failure "list index out of range" (PyStr "q1");
            Failure "list index out of range" (PyStr "q2")] = 2.
Proof.
  refine (proj2 (process_batch_prompts_all_or_nothing Sample.service_no_choices
            Sample.adapter [Sample.prompt "q1"; Sample.prompt "q2"] false
            (Sample.store Sample.params_model) _ _)
            [Sample.response "A"; Sample.response_no_choices] _ _).
  - by vm_compute.
  - reflexivity.
  - apply Exists_cons_tl, Exists_cons_hd. left.
    exists (IndexError "list index out of range"). by vm_compute.
Defined.

(** ** The batch call and the standard output *)

Lemma success_mapping (rs ps : list PyVal) :
  Forall2 (λ r m, (∃ c u, response_with r c u)
                  ∧ is_Some (first_message_content m)) rs ps →
  ∃ records,
    comprehension success_record (zip rs ps) = Ok records
    ∧ Forall2 (λ p record, ∃ c q u,
                 response_with p.1 c u ∧ first_message_content p.2 = Some q
                 ∧ record = Success c q u) (zip rs ps) records.
Proof.
  intros Hall.
  assert (H : ∃ records,
    Forall2 (λ p record, ∃ c q u,
               response_with p.1 c u ∧ first_message_content p.2 = Some q
               ∧ record = Success c q u) (zip rs ps) records).
  { induction Hall as [| r m rs' ps' Hrm _ IH]; [by exists [] |].
    destruct Hrm as [(c & u & Hr) [q Hq]]. destruct IH as [records IH].
    exists (Success c q u :: records). constructor; [| done].
    by exists c, q, u. }
  destruct H as [records Hrec]. exists records. split; [| done].
  apply comprehension_Ok. eapply Forall2_impl; [exact Hrec |].
  intros [r m] record (c & q & u & Hr & Hq & ->). by apply success_record_Ok.
Qed.

Section Stdout.
Variable batch_completion : gmap string PyVal → outcome (list PyVal).

Lemma process_batch_prompts_on_run (sys_stdout : stream) (self : t)
    (ps : list PyVal) (dbg : bool) (σ : state) :
  process_batch_prompts_on batch_completion sys_stdout self ps dbg σ =
    match batch_completion (submitted σ self ps) with
    | Raised e => (handled ps e, after_payload σ self ps)
    | Ok rs =>
        match (if dbg then sys_stdout else Accepts) with
        | Accepts =>
            (match comprehension success_record (zip rs ps) with
             | Ok records => Ok records
             | Raised e => handled ps e
             end,
             after_trace (after_payload σ self ps) dbg rs)
        | Fails e => (handled ps e, after_payload σ self ps)
        end
    end.
Proof.
  unfold process_batch_prompts_on, print_on, try_except, bind at 1.
  rewrite construct_request_payload_run.
  unfold bind, deref, eval, handled, after_payload, submitted.
  rewrite contents_last.
  destruct (batch_completion _) as [rs | e]; cbn [fst snd];
    [| by destruct (exc_is_Exception e)].
  unfold after_trace.
  destruct dbg; [destruct sys_stdout as [| e'] |];
    unfold print, ret, raise; cbn [heap stdout];
    try (destruct (comprehension success_record _) as [records | e]; try done;
         by destruct (exc_is_Exception e)).
  by destruct (exc_is_Exception e').
Qed.

(** C8, as the code has it: the trace is printed inside the [try], so the
    call with [debug_mode=True] returns what the call with
    [debug_mode=False] returns (the same records, or the same exception) and
    leaves the same store whenever printing the trace does not raise; the
    printed line is then the only difference. *)
Theorem debug_trace_noninterference (sys_stdout : stream) (self : t)
    (ps : list PyVal) (σ : state) :
  (∀ rs, batch_completion (submitted σ self ps) = Ok rs →
     ∃ τ, print_on sys_stdout [PyStr "LLM raw response:"; PyList rs]
            (after_payload σ self ps) = (Ok tt, τ)) →
  fst (process_batch_prompts_on batch_completion sys_stdout self ps true σ)
    = fst (process_batch_prompts_on batch_completion sys_stdout self ps false σ)
  ∧ heap (snd (process_batch_prompts_on batch_completion sys_stdout self ps true σ))
    = heap (snd (process_batch_prompts_on batch_completion sys_stdout self ps false σ))
  ∧ stdout (snd (process_batch_prompts_on batch_completion sys_stdout self ps false σ))
    = stdout σ
  ∧ (∀ rs, batch_completion (submitted σ self ps) = Ok rs →
       stdout (snd (process_batch_prompts_on batch_completion sys_stdout self ps true σ))
         = stdout σ ++ [[PyStr "LLM raw response:"; PyList rs]]).
Proof.
  intros Hprint. rewrite !process_batch_prompts_on_run.
  destruct (batch_completion _) as [rs | e];
    cbn [fst snd after_trace after_payload heap stdout]; [| by repeat split].
  destruct (Hprint rs eq_refl) as [τ Hτ].
  destruct sys_stdout as [| e']; [| done].
  cbn [fst snd after_trace after_payload heap stdout].
  repeat split. by intros ? [= ->].
Qed.


End Stdout.

(** C8 fails as stated: the service returns two well-formed responses and
    the standard output is closed; with [debug_mode=True] the [ValueError]
    of [print] is caught and the call returns Failure records, with
    [debug_mode=False] it returns the Success records. *)
Lemma debug_trace_failure_changes_records :
  fst (process_batch_prompts_on Sample.service_AB Sample.closed_stdout
         Sample.adapter [Sample.prompt "q1"; Sample.prompt "q2"] true
         (Sample.store Sample.params_model))
    = Ok [Failure "I/O operation on closed file." (PyStr "q1");
          Failure "I/O operation on closed file." (PyStr "q2")]
  ∧ fst (process_batch_prompts_on Sample.service_AB Sample.closed_stdout
           Sample.adapter [Sample.prompt "q1"; Sample.prompt "q2"] false
           (Sample.store Sample.params_model))
    = Ok [Success (PyStr "A") (PyStr "q1") Sample.usage_dict;
          Success (PyStr "B") (PyStr "q2") Sample.usage_dict].
Proof. split; by vm_compute. Qed.

Lemma debug_trace_noninterference_sample :
  fst (process_batch_prompts_on Sample.service_AB Accepts Sample.adapter
         [Sample.prompt "q1"; Sample.prompt "q2"] true
         (Sample.store Sample.params_model))
    = fst (process_batch_prompts_on Sample.service_AB Accepts Sample.adapter
             [Sample.prompt "q1"; Sample.prompt "q2"] false
             (Sample.store Sample.params_model)).
Proof.
  refine (proj1 (debug_trace_noninterference Sample.service_AB Accepts
            Sample.adapter [Sample.prompt "q1"; Sample.prompt "q2"]
            (Sample.store Sample.params_model) _)).
  intros rs _. eexists. reflexivity.
Defined.


(** ** A [messages] entry in [llm_params] *)

(** C9: when the stored [llm_params] has the key [messages], the payload
    carries that entry under [messages] whatever prompt sequences are passed,
    and it is this payload, the same for every input, that the service is
    called with: what the service raises or returns on it decides the
    records, whatever the service does on any other payload. The records
    still take [original_query] from the prompt sequences passed: one
    Failure record per prompt sequence when the service raises an
    [Exception], the Success records of the paired responses and prompt
    sequences when it returns well-formed responses. *)
Theorem payload_messages_overridden (self : t) (ps : list PyVal) (σ : state)
    (v : PyVal) :
  contents σ (llm_params self) !! "messages" = Some v →
  (∃ σ', construct_request_payload self ps σ = (Ok (length (heap σ)), σ')
     ∧ contents σ' (length (heap σ)) = submitted σ self ps)
  ∧ submitted σ self ps !! "messages" = Some v
  ∧ (∀ ps', submitted σ self ps' = submitted σ self ps)
  ∧ (∀ bc bc' dbg,
       bc (submitted σ self []) = bc' (submitted σ self []) →
       process_batch_prompts bc self ps dbg σ
         = process_batch_prompts bc' self ps dbg σ)
  ∧ (∀ bc dbg records,
       fst (process_batch_prompts bc self ps dbg σ) = Ok records →
       ∀ i record, records !! i = Some record →
         ∃ m q, ps !! i = Some m ∧ first_message_content m = Some q
           ∧ field record "original_query" = Some q)
  ∧ (∀ bc dbg e,
       bc (submitted σ self []) = Raised e →
       exc_is_Exception e = true →
       Forall (λ m, is_Some (first_message_content m)) ps →
       ∃ records,
         fst (process_batch_prompts bc self ps dbg σ) = Ok records
         ∧ Forall2 (λ m record, ∃ q, first_message_content m = Some q
                      ∧ record = Failure (exc_str e) q) ps records)
  ∧ (∀ bc dbg rs,
       bc (submitted σ self []) = Ok rs →
       Forall2 (λ r m, (∃ c u, response_with r c u)
                       ∧ is_Some (first_message_content m)) rs ps →
       ∃ records,
         fst (process_batch_prompts bc self ps dbg σ) = Ok records
         ∧ length records = length ps
         ∧ Forall2 (λ p record, ∃ c q u,
                      response_with p.1 c u ∧ first_message_content p.2 = Some q
                      ∧ record = Success c q u) (zip rs ps) records).
Proof.
  intros Hv.
  assert (Hindep : ∀ ps1 ps2, submitted σ self ps1 = submitted σ self ps2).
  { intros ps1 ps2. apply map_eq. intros key.
    rewrite !submitted_lookup. unfold expected_entry.
    destruct (contents σ (llm_params self) !! key) eqn:Hk; [done |].
    repeat case_decide; try done. congruence. }
  split; [| split; [| split; [| split; [| split; [| split]]]]].
  - rewrite construct_request_payload_run. eexists. split; [done |].
    apply contents_last.
  - rewrite submitted_lookup. unfold expected_entry. by rewrite Hv.
  - intros ps'. apply Hindep.
  - intros bc bc' dbg Hbc. rewrite !process_batch_prompts_run.
    rewrite (Hindep ps []). by rewrite Hbc.
  - intros bc dbg records. apply process_batch_prompts_queries.
  - intros bc dbg e Hbc He Hps.
    rewrite process_batch_prompts_run, (Hindep ps []), Hbc. cbn [fst].
    destruct (handled_Ok ps e He Hps) as [records Hr].
    exists records. split; [done |]. by apply handled_Ok_inv in Hr as [_ ?].
  - intros bc dbg rs Hbc Hall.
    rewrite process_batch_prompts_run, (Hindep ps []), Hbc. cbn [fst].
    destruct (success_mapping rs ps Hall) as (records & Hc & Hrec).
    exists records. rewrite Hc. split; [done |]. split; [| done].
    apply Forall2_length in Hrec, Hall.
    rewrite <- Hrec, length_zip_with. lia.
Qed.

Lemma payload_messages_overridden_sample :
  submitted (Sample.store Sample.params_messages) Sample.adapter
    [Sample.prompt "q1"; Sample.prompt "q2"] !! "messages" = Some (PyList [])
  ∧ (∃ records,
       fst (process_batch_prompts Sample.service_rate_limited Sample.adapter
              [Sample.prompt "q1"; Sample.prompt "q2"] false
              (Sample.store Sample.params_messages)) = Ok records
       ∧ Forall2 (λ m record, ∃ q, first_message_content m = Some q
                    ∧ record = Failure "rate limited" q)
           [Sample.prompt "q1"; Sample.prompt "q2"] records)
  ∧ (∃ records,
       fst (process_batch_prompts Sample.service_AB Sample.adapter
              [Sample.prompt "q1"; Sample.prompt "q2"] false
              (Sample.store Sample.params_messages)) = Ok records
       ∧ length records = 2
       ∧ Forall2 (λ p record, ∃ c q u,
                    response_with p.1 c u ∧ first_message_content p.2 = Some q
                    ∧ record = Success c q u)
           (zip [Sample.response "A"; Sample.response "B"]
                [Sample.prompt "q1"; Sample.prompt "q2"]) records).
Proof.
  destruct (payload_messages_overridden Sample.adapter
              [Sample.prompt "q1"; Sample.prompt "q2"]
              (Sample.store Sample.params_messages) (PyList []))
    as (_ & Hm & _ & _ & _ & Hfail & Hok); [by vm_compute |].
  split; [exact Hm |]. split.
  - apply (Hfail Sample.service_rate_limited false Sample.rate_limited).
    + reflexivity.
    + reflexivity.
    + repeat (constructor; [by eexists |]). constructor.
  - apply (Hok Sample.service_AB false
             [Sample.response "A"; Sample.response "B"]).
    + reflexivity.
    + repeat (constructor;
        [split; [eexists _, _; apply sample_response_with | by eexists] |]).
      constructor.
Defined.

(** * Further properties of the code *)

(** ** The caller's dictionary and the adapter's *)

Lemma contents_nonempty_valid (σ : state) (l : loc) :
  contents σ l ≠ ∅ → l < length (heap σ).
Proof.
  intros Hne. destruct (decide (l < length (heap σ))) as [| Hge]; [done |].
  destruct Hne. apply contents_dangling. lia.
Qed.

Lemma contents_dict_update (σ : state) (l l' : loc) (upd : gmap string PyVal) :
  l < length (heap σ) →
  contents (snd (dict_update l upd σ)) l' =
    if decide (l = l') then upd ∪ contents σ l else contents σ l'.
Proof.
  intros Hl. unfold dict_update, contents. cbn [snd heap].
  case_decide as Heq.
  - subst l'. by rewrite list_lookup_insert_eq.
  - by rewrite list_lookup_insert_ne.
Qed.

(** X1: a non-empty [llm_params] is stored by reference, not copied:
    construction leaves the state as it is, and entries the caller puts in
    its dictionary afterwards are laid over the defaults of every payload
    built later. *)
Theorem init_shares_nonempty_params (ident tok : PyVal) (l : loc)
    (σ σ' : state) (self : t) :
  __init__ ident tok (Some l) σ = (Ok self, σ') →
  contents σ l ≠ ∅ →
  llm_params self = l ∧ σ' = σ
  ∧ ∀ (upd : gmap string PyVal) (ps : list PyVal),
      ∃ r τ, bind (dict_update l upd)
                  (λ _, construct_request_payload self ps) σ' = (Ok r, τ)
        ∧ contents τ r = (upd ∪ contents σ l) ∪ base_payload self ps.
Proof.
  intros Hinit Hne. rewrite init_run in Hinit.
  assert (Ht : dict_truthy (contents σ l) = true).
  { destruct (dict_truthy (contents σ l)) eqn:E; [done |].
    by apply dict_truthy_false in E. }
  assert (Hself : llm_params self = l ∧ σ' = σ).
  { unfold init_ref, init_state, keeps_params in Hinit. rewrite Ht in Hinit.
    destruct (negb _); [done |]. destruct (negb _); [done |].
    by injection Hinit as <- <-. }
  destruct Hself as [Hl ->]. split; [done |]. split; [done |].
  intros upd ps. unfold bind.
  pose proof (contents_dict_update σ l l upd (contents_nonempty_valid σ l Hne)) as Hu.
  destruct (dict_update l upd σ) as [[[] | e] τ0] eqn:Hd; [| done].
  rewrite construct_request_payload_run. eexists _, _. split; [done |].
  rewrite contents_last, Hl. cbn [snd] in Hu. rewrite Hu.
  by rewrite decide_True.
Qed.

Lemma init_shares_nonempty_params_sample :
  llm_params Sample.adapter = 0
  ∧ Sample.store Sample.params_model = Sample.store Sample.params_model
  ∧ ∀ (upd : gmap string PyVal) (ps : list PyVal),
      ∃ r τ, bind (dict_update 0 upd)
                  (λ _, construct_request_payload Sample.adapter ps)
                  (Sample.store Sample.params_model) = (Ok r, τ)
        ∧ contents τ r =
            (upd ∪ contents (Sample.store Sample.params_model) 0)
            ∪ base_payload Sample.adapter ps.
Proof.
  apply (init_shares_nonempty_params PyNone (PyStr "T") 0
           (Sample.store Sample.params_model)
           (Sample.store Sample.params_model) Sample.adapter).
  - by vm_compute.
  - intros H. apply (f_equal (λ d : gmap string PyVal, d !! "model")) in H.
    by vm_compute in H.
Defined.

(** X2: an empty [llm_params] dictionary is not stored: the adapter gets a
    new empty dictionary of its own, and entries the caller puts in its
    dictionary afterwards never reach a payload. *)
Theorem init_replaces_empty_params (ident tok : PyVal) (l : loc)
    (σ σ' : state) (self : t) :
  __init__ ident tok (Some l) σ = (Ok self, σ') →
  l < length (heap σ) →
  contents σ l = ∅ →
  llm_params self = length (heap σ) ∧ llm_params self ≠ l
  ∧ heap σ' = heap σ ++ [∅]
  ∧ ∀ (upd : gmap string PyVal) (ps : list PyVal),
      ∃ r τ, bind (dict_update l upd)
                  (λ _, construct_request_payload self ps) σ' = (Ok r, τ)
        ∧ contents τ r = base_payload self ps.
Proof.
  intros Hinit Hl He. rewrite init_run in Hinit.
  assert (Ht : dict_truthy (contents σ l) = false) by by apply dict_truthy_false.
  assert (Hself : llm_params self = length (heap σ)
                  ∧ σ' = mkState (heap σ ++ [∅]) (stdout σ)).
  { unfold init_ref, init_state, keeps_params in Hinit. rewrite Ht in Hinit.
    destruct (negb _); [done |]. destruct (negb _); [done |].
    by injection Hinit as <- <-. }
  destruct Hself as [Hp ->]. split; [done |]. split; [lia |]. split; [done |].
  intros upd ps. unfold bind.
  set (σ1 := mkState (heap σ ++ [∅]) (stdout σ)).
  assert (Hl1 : l < length (heap σ1)) by (cbn [σ1 heap]; rewrite length_app; lia).
  pose proof (contents_dict_update σ1 l (llm_params self) upd Hl1) as Hu.
  destruct (dict_update l upd σ1) as [[[] | e] τ0] eqn:Hd; [| done].
  rewrite construct_request_payload_run. eexists _, _. split; [done |].
  rewrite contents_last. cbn [snd] in Hu. rewrite Hu.
  rewrite decide_False by lia. rewrite Hp. unfold σ1.
  by rewrite contents_last, (left_id_L ∅ (∪)).
Qed.

Lemma init_replaces_empty_params_sample :
  llm_params (mk 1 (PyStr "m") (PyStr "T")) = 1
  ∧ llm_params (mk 1 (PyStr "m") (PyStr "T")) ≠ 0
  ∧ heap (mkState [∅; ∅] []) = heap (Sample.store ∅) ++ [∅]
  ∧ ∀ (upd : gmap string PyVal) (ps : list PyVal),
      ∃ r τ, bind (dict_update 0 upd)
                  (λ _, construct_request_payload (mk 1 (PyStr "m") (PyStr "T")) ps)
                  (mkState [∅; ∅] []) = (Ok r, τ)
        ∧ contents τ r = base_payload (mk 1 (PyStr "m") (PyStr "T")) ps.
Proof.
  apply (init_replaces_empty_params (PyStr "m") (PyStr "T") 0
           (Sample.store ∅) (mkState [∅; ∅] []) (mk 1 (PyStr "m") (PyStr "T"))).
  - by vm_compute.
  - vm_compute. lia.
  - reflexivity.
Defined.

(** ** What construction reports and what a new adapter submits *)

(** X3: the access token is checked before the model identifier: the message
    of the [ValueError] names the token whenever the effective token is
    falsy, also when the identifier is missing too, and names the identifier
    only when the token is there. *)
Theorem init_checks_token_first (ident tok : PyVal) (params : option loc)
    (σ : state) (e : PyExc) :
  fst (__init__ ident tok params σ) = Raised e →
  (exc_str e = "Access token must be provided either directly or in the llm_params."
   ∧ truthy (effective tok (params_of σ params) "access_token") = false)
  ∨ (exc_str e = "LLM model identifier must be provided either directly or in the llm_params."
     ∧ truthy (effective tok (params_of σ params) "access_token") = true
     ∧ truthy (effective ident (params_of σ params) "model") = false).
Proof.
  rewrite init_run. cbn [fst].
  destruct (truthy (effective tok _ _)), (truthy (effective ident _ _)); simpl;
    intros [= <-]; auto.
Qed.

Lemma init_checks_token_first_sample :
  (exc_str (ValueError "Access token must be provided either directly or in the llm_params.")
     = "Access token must be provided either directly or in the llm_params."
   ∧ truthy (effective PyNone (params_of (mkState [] []) None) "access_token") = false)
  ∨ (exc_str (ValueError "Access token must be provided either directly or in the llm_params.")
       = "LLM model identifier must be provided either directly or in the llm_params."
     ∧ truthy (effective PyNone (params_of (mkState [] []) None) "access_token") = true
     ∧ truthy (effective PyNone (params_of (mkState [] []) None) "model") = false).
Proof.
  apply (init_checks_token_first PyNone PyNone None (mkState [] [])).
  reflexivity.
Defined.

Lemma submitted_init (ident tok : PyVal) (params : option loc) (σ σ' : state)
    (self : t) (ps : list PyVal) :
  __init__ ident tok params σ = (Ok self, σ') →
  submitted σ' self ps = params_of σ params ∪ base_payload self ps
  ∧ llm_identifier self = effective ident (params_of σ params) "model"
  ∧ access_token self = effective tok (params_of σ params) "access_token".
Proof.
  rewrite init_run.
  destruct (negb _); [done |]. destruct (negb _); [done |].
  intros [= <- <-]. unfold submitted. cbn [llm_params llm_identifier access_token].
  by rewrite contents_init.
Qed.

(** X4: an explicit [llm_identifier] does not decide the model that is
    submitted when [llm_params] has a [model] entry: the adapter stores the
    explicit identifier, and every payload carries the entry of [llm_params]
    under [model]. *)
Theorem params_model_overrides_identifier (ident tok : PyVal) (l : loc)
    (σ σ' : state) (self : t) (v : PyVal) (ps : list PyVal) :
  __init__ ident tok (Some l) σ = (Ok self, σ') →
  truthy ident = true →
  contents σ l !! "model" = Some v →
  llm_identifier self = ident
  ∧ ∃ r τ, construct_request_payload self ps σ' = (Ok r, τ)
      ∧ contents τ r !! "model" = Some v.
Proof.
  intros Hinit Hid Hv.
  destruct (submitted_init _ _ _ _ _ _ ps Hinit) as (Hs & Hi & _).
  split.
  - rewrite Hi. unfold effective, given. by rewrite Hid.
  - rewrite construct_request_payload_run. eexists _, _. split; [done |].
    rewrite contents_last. fold (submitted σ' self ps). rewrite Hs.
    apply lookup_union_Some_l. exact Hv.
Qed.

Lemma params_model_overrides_identifier_sample :
  llm_identifier (mk 0 (PyStr "gpt-4") (PyStr "T")) = PyStr "gpt-4"
  ∧ ∃ r τ, construct_request_payload (mk 0 (PyStr "gpt-4") (PyStr "T"))
             [Sample.prompt "q"] (Sample.store Sample.params_model) = (Ok r, τ)
      ∧ contents τ r !! "model" = Some (PyStr "m").
Proof.
  apply (params_model_overrides_identifier (PyStr "gpt-4") (PyStr "T") 0
           (Sample.store Sample.params_model) (Sample.store Sample.params_model)
           (mk 0 (PyStr "gpt-4") (PyStr "T")) (PyStr "m") [Sample.prompt "q"]).
  - by vm_compute.
  - reflexivity.
  - reflexivity.
Defined.

(** X5: a token that is taken from [llm_params] is submitted twice: every
    payload carries it under [api_key] and, as [llm_params] is laid over the
    defaults whole, under [access_token] too. *)
Theorem params_token_is_submitted_twice (ident tok : PyVal) (l : loc)
    (σ σ' : state) (self : t) (v : PyVal) (ps : list PyVal) :
  __init__ ident tok (Some l) σ = (Ok self, σ') →
  truthy tok = false →
  contents σ l !! "access_token" = Some v →
  contents σ l !! "api_key" = None →
  ∃ r τ, construct_request_payload self ps σ' = (Ok r, τ)
    ∧ contents τ r !! "api_key" = Some v
    ∧ contents τ r !! "access_token" = Some v.
Proof.
  intros Hinit Htok Hv Hk.
  destruct (submitted_init _ _ _ _ _ _ ps Hinit) as (Hs & _ & Ht).
  rewrite construct_request_payload_run. eexists _, _. split; [done |].
  rewrite contents_last. fold (submitted σ' self ps). rewrite Hs.
  split.
  - rewrite lookup_union_r by exact Hk. unfold base_payload.
    rewrite lookup_insert_eq. f_equal. rewrite Ht.
    unfold effective, given, dict_get. rewrite Htok. cbn [params_of].
    by rewrite Hv.
  - apply lookup_union_Some_l. exact Hv.
Qed.

Lemma params_token_is_submitted_twice_sample :
  ∃ r τ, construct_request_payload Sample.adapter [Sample.prompt "q"]
           (Sample.store Sample.params_token) = (Ok r, τ)
    ∧ contents τ r !! "api_key" = Some (PyStr "T")
    ∧ contents τ r !! "access_token" = Some (PyStr "T").
Proof.
  apply (params_token_is_submitted_twice PyNone PyNone 0
           (Sample.store Sample.params_token) (Sample.store Sample.params_token)
           Sample.adapter (PyStr "T") [Sample.prompt "q"]).
  - by vm_compute.
  - reflexivity.
  - reflexivity.
  - reflexivity.
Defined.

(** X6: an adapter built from an identifier and a token alone submits the
    four defaults and nothing else. *)
Theorem init_without_params_submits_defaults (ident tok : PyVal)
    (σ σ' : state) (self : t) (ps : list PyVal) :
  __init__ ident tok None σ = (Ok self, σ') →
  ∃ r τ, construct_request_payload self ps σ' = (Ok r, τ)
    ∧ contents τ r =
        <["api_key" := tok]>
        (<["temperature" := PyFloat 0]>
        (<["messages" := PyList ps]>
        (<["model" := ident]> ∅)))
    ∧ size (contents τ r) = 4.
Proof.
  intros Hinit.
  destruct (submitted_init _ _ _ _ _ _ ps Hinit) as (Hs & Hi & Ht).
  assert (Hid : llm_identifier self = ident ∧ access_token self = tok).
  { rewrite init_run in Hinit. rewrite Hi, Ht.
    destruct (truthy (effective tok _ _)) eqn:E1; [| done].
    destruct (truthy (effective ident _ _)) eqn:E2; [| done].
    unfold effective, given, dict_get in *. cbn [params_of] in *.
    rewrite lookup_empty in *. cbn [default] in *.
    by destruct (truthy tok), (truthy ident). }
  destruct Hid as [Hid Htk].
  rewrite construct_request_payload_run. eexists _, _. split; [done |].
  rewrite contents_last. fold (submitted σ' self ps). rewrite Hs.
  cbn [params_of]. rewrite (left_id_L ∅ (∪)). unfold base_payload.
  rewrite Hid, Htk. split; [done |].
  rewrite !map_size_insert_None, map_size_empty; [done | ..];
    by simplify_map_eq.
Qed.

Lemma init_without_params_submits_defaults_sample :
  ∃ r τ, construct_request_payload (mk 0 (PyStr "claude-3-sonnet-20240229")
             (PyStr "your-access-token")) [Sample.prompt "q"]
           (mkState [∅] []) = (Ok r, τ)
    ∧ contents τ r =
        <["api_key" := PyStr "your-access-token"]>
        (<["temperature" := PyFloat 0]>
        (<["messages" := PyList [Sample.prompt "q"]]>
        (<["model" := PyStr "claude-3-sonnet-20240229"]> ∅)))
    ∧ size (contents τ r) = 4.
Proof.
  apply (init_without_params_submits_defaults (PyStr "claude-3-sonnet-20240229")
           (PyStr "your-access-token") (mkState [] []) (mkState [∅] [])
           (mk 0 (PyStr "claude-3-sonnet-20240229") (PyStr "your-access-token"))
           [Sample.prompt "q"]).
  by vm_compute.
Defined.

(** ** The batch call: state, surplus and shortage *)

Lemma comprehension_first_Raised {A B} (f : A → outcome B) (xs : list A)
    (k : nat) (x : A) (e : PyExc) :
  Forall (λ y, ∃ b, f y = Ok b) (take k xs) →
  xs !! k = Some x → f x = Raised e →
  comprehension f xs = Raised e.
Proof.
  revert k. induction xs as [| y xs IH]; intros k Hpre Hk Hx; [done |].
  destruct k as [| k]; simpl in *.
  - injection Hk as ->. by rewrite Hx.
  - apply Forall_cons in Hpre as [[b Hb] Hpre]. rewrite Hb. simpl.
    by rewrite (IH k).
Qed.

Lemma zip_surplus {A B} (xs extra : list A) (ys : list B) :
  length ys ≤ length xs → zip (xs ++ extra) ys = zip xs ys.
Proof.
  revert ys. induction xs as [| x xs IH]; intros [| y ys] Hl; simpl in *;
    try done; try lia.
  - by destruct extra.
  - f_equal. apply IH. lia.
Qed.

Section BatchState.
Variable batch_completion : gmap string PyVal → outcome (list PyVal).

(** X7: whatever the service does, a call adds one object to the store, the
    payload, and changes no object that was there; so the adapter stays
    constructed and the next call submits the same payload for the same
    prompt sequences. A line is printed only in debug mode. *)
Theorem process_batch_prompts_keeps_store (self : t) (ps : list PyVal)
    (dbg : bool) (σ : state) :
  constructed σ self →
  let σ' := snd (process_batch_prompts batch_completion self ps dbg σ) in
  heap σ' = heap σ ++ [submitted σ self ps]
  ∧ (∀ l, l < length (heap σ) → contents σ' l = contents σ l)
  ∧ constructed σ' self
  ∧ (∀ ps', submitted σ' self ps' = submitted σ self ps')
  ∧ (dbg = false → stdout σ' = stdout σ).
Proof.
  intros (Hl & Htok & Hid) σ'.
  assert (Hheap : heap σ' = heap σ ++ [submitted σ self ps]).
  { subst σ'. rewrite process_batch_prompts_run.
    destruct (batch_completion _); cbn [snd]; [| done].
    unfold after_trace. by destruct dbg. }
  assert (Hold : ∀ l, l < length (heap σ) → contents σ' l = contents σ l).
  { intros l Hlt. unfold contents. rewrite Hheap. by rewrite lookup_app_l. }
  split; [done |]. split; [done |]. split; [| split].
  - split; [| done]. rewrite Hheap, length_app. lia.
  - intros ps'. unfold submitted. by rewrite Hold.
  - intros ->. subst σ'. rewrite process_batch_prompts_run.
    by destruct (batch_completion _).
Qed.

(** X8: responses beyond the number of prompt sequences are never looked at:
    a reply with surplus responses, well formed or not, gives what the reply
    without them gives. *)
Theorem surplus_responses_are_ignored
    (other : gmap string PyVal → outcome (list PyVal))
    (self : t) (ps : list PyVal) (dbg : bool) (σ : state)
    (rs extra : list PyVal) :
  batch_completion (submitted σ self ps) = Ok (rs ++ extra) →
  other (submitted σ self ps) = Ok rs →
  length ps ≤ length rs →
  fst (process_batch_prompts batch_completion self ps dbg σ)
    = fst (process_batch_prompts other self ps dbg σ).
Proof.
  intros Hbc Hother Hlen. rewrite !process_batch_prompts_run, Hbc, Hother.
  cbn [fst]. by rewrite zip_surplus.
Qed.


(** X10: on an empty batch the service is still called and its answer is
    dropped: the call returns the empty list when the service returns and
    when it raises an [Exception], whose message is lost; only an exception
    outside [Exception] comes out. *)
Theorem empty_batch_returns_nothing (self : t) (dbg : bool) (σ : state) :
  fst (process_batch_prompts batch_completion self [] dbg σ) =
    match batch_completion (submitted σ self []) with
    | Ok _ => Ok []
    | Raised e => if exc_is_Exception e then Ok [] else Raised e
    end.
Proof.
  rewrite process_batch_prompts_run.
  destruct (batch_completion _) as [rs | e]; cbn [fst]; [| done].
  by rewrite zip_with_nil_r.
Qed.

End BatchState.

Lemma process_batch_prompts_keeps_store_sample :
  let σ' := snd (process_batch_prompts Sample.service_AB Sample.adapter
                   [Sample.prompt "q1"; Sample.prompt "q2"] true
                   (Sample.store Sample.params_model)) in
  heap σ' = heap (Sample.store Sample.params_model)
            ++ [submitted (Sample.store Sample.params_model) Sample.adapter
                  [Sample.prompt "q1"; Sample.prompt "q2"]]
  ∧ (∀ l, l < length (heap (Sample.store Sample.params_model)) →
          contents σ' l = contents (Sample.store Sample.params_model) l)
  ∧ constructed σ' Sample.adapter
  ∧ (∀ ps', submitted σ' Sample.adapter ps'
            = submitted (Sample.store Sample.params_model) Sample.adapter ps')
  ∧ (true = false → stdout σ' = stdout (Sample.store Sample.params_model)).
Proof.
  apply (process_batch_prompts_keeps_store Sample.service_AB Sample.adapter
           [Sample.prompt "q1"; Sample.prompt "q2"] true
           (Sample.store Sample.params_model)).
  repeat split. vm_compute. lia.
Defined.

Lemma surplus_responses_are_ignored_sample :
  fst (process_batch_prompts Sample.service_ABC Sample.adapter
         [Sample.prompt "q1"; Sample.prompt "q2"] false
         (Sample.store Sample.params_model))
    = fst (process_batch_prompts Sample.service_AB Sample.adapter
             [Sample.prompt "q1"; Sample.prompt "q2"] false
             (Sample.store Sample.params_model)).
Proof.
  apply (surplus_responses_are_ignored Sample.service_ABC Sample.service_AB
           Sample.adapter [Sample.prompt "q1"; Sample.prompt "q2"] false
           (Sample.store Sample.params_model)
           [Sample.response "A"; Sample.response "B"]
           [Sample.response_no_choices]).
  - reflexivity.
  - reflexivity.
  - vm_compute. lia.
Defined.


(** ** The batch call: which error is reported *)

Lemma response_with_complete (r c u : PyVal) :
  response_content r = Ok c → response_usage r = Ok u → response_with r c u.
Proof.
  unfold response_content, response_usage, hasattr.
  destruct r as [| | | | | | | cls attrs | |]; try done. simpl.
  destruct (attrs !! "choices") as [choices |] eqn:Hch; [| done]. simpl.
  destruct choices as [| | | | s | l | | | |]; try done;
    [destruct s; done |].
  destruct l as [| choice rest]; [done |]. simpl.
  destruct choice as [| | | | | | | ccls cattrs | |]; try done. simpl.
  destruct (cattrs !! "message") as [message |] eqn:Hm; [| done]. simpl.
  destruct message as [| | | | | | | mcls mattrs | |]; try done. simpl.
  destruct (mattrs !! "content") as [content |] eqn:Hc; [| done].
  intros [= ->].
  destruct (attrs !! "usage") as [usage |] eqn:Hu; simpl.
  - destruct usage as [| | | | | | | ucls uattrs | |]; try done. simpl.
    destruct (uattrs !! "to_dict") as [to_dict |] eqn:Ht; [| done]. simpl.
    destruct to_dict; try done. simpl. intros [= ->].
    by eapply response_with_usage.
  - intros [= <-]. by eapply response_without_usage.
Qed.

(** X11: the element of the first comprehension evaluates to a record
    exactly when the response is well formed and the prompt sequence has a
    first message with a content, and the record is then the Success record
    of the three extracted values. *)
Theorem success_record_iff (r m record : PyVal) :
  success_record (r, m) = Ok record ↔
  ∃ c q u, response_with r c u ∧ first_message_content m = Some q
    ∧ record = Success c q u.
Proof.
  split.
  - intros (c & q & u & Hc & Hq & Hu & ->)%success_record_inv.
    exists c, q, u. split; [by apply response_with_complete | done].
  - intros (c & q & u & Hr & Hq & ->). by apply success_record_Ok.
Qed.



Section BatchErrors.
Variable batch_completion : gmap string PyVal → outcome (list PyVal).




(** X15: when the service raises an [Exception] and a prompt sequence has no
    first message with a content, the prompt sequences before it being fine,
    the call raises the exception of [messages[0]["content"]] on that prompt
    sequence, and the exception of the service is lost. *)
Theorem handler_masks_service_error (self : t) (ps : list PyVal) (dbg : bool)
    (σ : state) (e : PyExc) (k : nat) (m : PyVal) :
  batch_completion (submitted σ self ps) = Raised e →
  exc_is_Exception e = true →
  Forall (λ m', is_Some (first_message_content m')) (take k ps) →
  ps !! k = Some m →
  first_message_content m = None →
  ∃ e', original_query m = Raised e'
    ∧ fst (process_batch_prompts batch_completion self ps dbg σ) = Raised e'.
Proof.
  intros Hbc He Hpre Hk Hm.
  destruct (original_query m) as [q | e'] eqn:Hq.
  { apply original_query_Ok in Hq. congruence. }
  exists e'. split; [done |].
  rewrite process_batch_prompts_run, Hbc. cbn [fst]. unfold handled. rewrite He.
  apply (comprehension_first_Raised _ ps k m e'); [| done |].
  - eapply Forall_impl; [exact Hpre |]. intros m' [q' Hq'].
    eexists. by apply failure_record_Ok.
  - unfold failure_record. by rewrite Hq.
Qed.

(** X16: the call raises in two cases only: the service raised an exception
    outside [Exception], which passes through, or the handler ran and
    [messages[0]["content"]] raised on a prompt sequence of the batch. *)
Theorem process_batch_prompts_raises_only (self : t) (ps : list PyVal)
    (dbg : bool) (σ : state) (e : PyExc) :
  fst (process_batch_prompts batch_completion self ps dbg σ) = Raised e →
  (batch_completion (submitted σ self ps) = Raised e
   ∧ exc_is_Exception e = false)
  ∨ (∃ m, m ∈ ps ∧ first_message_content m = None
        ∧ original_query m = Raised e ∧ exc_is_Exception e = true).
Proof.
  rewrite process_batch_prompts_run.
  assert (Hh : ∀ e0, exc_is_Exception e0 = true → handled ps e0 = Raised e →
    ∃ m, m ∈ ps ∧ first_message_content m = None
      ∧ original_query m = Raised e ∧ exc_is_Exception e = true).
  { intros e0 He0. unfold handled. rewrite He0.
    intros (m & Hin & Hm)%comprehension_Raised_inv.
    exists m. unfold failure_record in Hm.
    destruct (original_query m) as [q | e1] eqn:Hq; simpl in Hm; [done |].
    injection Hm as ->.
    repeat split; try done; [by eapply original_query_Raised
                            | by eapply original_query_raises]. }
  destruct (batch_completion _) as [rs | e0]; cbn [fst].
  - destruct (comprehension success_record (zip rs ps)) as [records | e0] eqn:Hc;
      [done |].
    intros H. right. eapply Hh; [| exact H].
    by eapply comprehension_success_raises.
  - destruct (exc_is_Exception e0) eqn:He0.
    + intros H. right. by eapply Hh.
    + unfold handled. rewrite He0. intros [= ->]. by left.
Qed.

End BatchErrors.



Lemma handler_masks_service_error_sample :
  ∃ e', original_query Sample.empty_prompt = Raised e'
    ∧ fst (process_batch_prompts Sample.service_rate_limited Sample.adapter
             [Sample.prompt "q1"; Sample.empty_prompt] false
             (Sample.store Sample.params_model)) = Raised e'.
Proof.
  apply (handler_masks_service_error Sample.service_rate_limited Sample.adapter
           [Sample.prompt "q1"; Sample.empty_prompt] false
           (Sample.store Sample.params_model) Sample.rate_limited 1
           Sample.empty_prompt).
  - reflexivity.
  - reflexivity.
  - constructor; [by eexists | constructor].
  - reflexivity.
  - reflexivity.
Defined.

Lemma process_batch_prompts_raises_only_sample :
  (Sample.service_interrupted
     (submitted (Sample.store Sample.params_model) Sample.adapter [Sample.prompt "q1"])
     = Raised (mkExc "KeyboardInterrupt" false "")
   ∧ exc_is_Exception (mkExc "KeyboardInterrupt" false "") = false)
  ∨ (∃ m, m ∈ [Sample.prompt "q1"] ∧ first_message_content m = None
        ∧ original_query m = Raised (mkExc "KeyboardInterrupt" false "")
        ∧ exc_is_Exception (mkExc "KeyboardInterrupt" false "") = true).
Proof.
  apply (process_batch_prompts_raises_only Sample.service_interrupted
           Sample.adapter [Sample.prompt "q1"] false
           (Sample.store Sample.params_model)).
  by vm_compute.
Defined.
